(** * picserver: the image-analysis micro-service of [main.cpp]

    A shallow embedding of the request pipeline of [main.cpp]
    (filename check, request validation, staging of the upload in a
    temporary file, XMP extraction through libexempi, the battery of
    heuristic tests and the JSON verdict), followed by the properties
    of the specification that were checked against it.

    Conventions.
    - [std::string] is [string]; a [char] is an [ascii].
    - The 64-bit content length and the [int32_t] fields of
      [XmpDateTime] are [Z]; no arithmetic is done on them, only
      comparisons, so no wrap-around arises.
    - libc, Poco and libexempi are linked libraries, not part of the
      repository: each is represented by the part of its interface
      that [main.cpp] calls. *)

From Stdlib Require Import ZArith String Ascii List Bool Lia.
From stdpp Require Import base gmap strings list.

Import ListNotations.
Set Warnings "-register-all".
Local Open Scope string_scope.
Local Open Scope Z_scope.

(** ** libc: [<ctype.h>], [<string.h>] *)

Module Libc.

(** [main.cpp] never calls [setlocale], so the classification
    functions are those of the "C" locale: a letter is one of the 52
    ASCII letters and a digit one of the ten ASCII digits; a [char]
    outside of ASCII (negative where [char] is signed; the tables of
    glibc cover that range) is in neither class. *)
Definition between (lo hi : N) (c : ascii) : bool :=
  ((lo <=? N_of_ascii c) && (N_of_ascii c <=? hi))%N.

Definition isupper (c : ascii) : bool := between 65 90 c.
Definition islower (c : ascii) : bool := between 97 122 c.
Definition isalpha (c : ascii) : bool := isupper c || islower c.
Definition isdigit (c : ascii) : bool := between 48 57 c.

(** A C string is read up to its terminating NUL: past the end of the
    [string] that holds it, the next character is NUL. *)
Definition NUL : ascii := Ascii.zero.

Definition cstr_head (s : string) : ascii :=
  match s with
  | EmptyString => NUL
  | String c _ => c
  end.

Definition cstr_tail (s : string) : string :=
  match s with
  | EmptyString => EmptyString
  | String _ rest => rest
  end.

Definition uchar (c : ascii) : Z := Z.of_N (N_of_ascii c).

(** [strncmp(s1, s2, n)]: compares at most [n] characters, stops at
    the first difference or at a NUL, and returns the difference of
    the two characters (as [unsigned char]) where it stopped. *)
Fixpoint strncmp (s1 s2 : string) (n : nat) : Z :=
  match n with
  | O => 0
  | S n' =>
      let c1 := cstr_head s1 in
      let c2 := cstr_head s2 in
      if negb (Ascii.eqb c1 c2) then uchar c1 - uchar c2
      else if Ascii.eqb c1 NUL then 0
      else strncmp (cstr_tail s1) (cstr_tail s2) n'
  end.

End Libc.

(** ** libexempi: the XMP toolkit *)

Module Exempi.

(** [struct _XmpDateTime] *)
Record XmpDateTime : Type := mkXmpDateTime {
  year : Z;
  month : Z;
  day : Z;
  hour : Z;
  minute : Z;
  second : Z;
  tzSign : Z;
  tzHour : Z;
  tzMinute : Z;
  nanoSecond : Z
}.

(** [XmpFileType]: the container formats the toolkit tells apart
    (the ones that matter here: JPEG against all the others). *)
Inductive XmpFileType : Type :=
| XMP_FT_PDF
| XMP_FT_JPEG
| XMP_FT_JPEG2K
| XMP_FT_TIFF
| XMP_FT_GIF
| XMP_FT_PNG
| XMP_FT_UNKNOWN.

Definition XmpFileType_eqb (a b : XmpFileType) : bool :=
  match a, b with
  | XMP_FT_PDF, XMP_FT_PDF
  | XMP_FT_JPEG, XMP_FT_JPEG
  | XMP_FT_JPEG2K, XMP_FT_JPEG2K
  | XMP_FT_TIFF, XMP_FT_TIFF
  | XMP_FT_GIF, XMP_FT_GIF
  | XMP_FT_PNG, XMP_FT_PNG
  | XMP_FT_UNKNOWN, XMP_FT_UNKNOWN => true
  | _, _ => false
  end.

(** The XMP packet behind an [XmpPtr], seen through the two accessors
    that [main.cpp] calls.  Each takes the schema namespace and the
    property name; [None] is the [false] the C function returns when
    the property is missing (for a date: missing or not a date) and
    [Some v] is [true] with [v] stored through the out-parameter. *)
Record Xmp : Type := mkXmp {
  xmp_get_property : string -> string -> option string;
  xmp_get_property_date : string -> string -> option XmpDateTime
}.

(** What [xmp_files_open_new] made of a file: the packet that
    [xmp_files_get_new_xmp] hands out ([None]: the call returns
    NULL) and the format that [xmp_files_get_file_info] reports. *)
Record XmpFile : Type := mkXmpFile {
  file_xmp : option Xmp;
  file_type : XmpFileType
}.

Definition NS_XAP : string := "http://ns.adobe.com/xap/1.0/".

End Exempi.

(** ** Poco::JSON::Object, with [JSON_PRESERVE_KEY_ORDER] *)

Module JSON.

(** The values [main.cpp] stores: booleans, strings and one nested
    object.  An object that preserves insertion order is a list of
    key/value pairs in that order. *)
Inductive Var : Type :=
| VBool (b : bool)
| VString (s : string)
| VObject (o : list (string * Var)).

Definition Object : Type := list (string * Var).

(** [Object::set]: an existing key keeps its place and takes the new
    value; a new key goes to the end. *)
Fixpoint set (key : string) (value : Var) (o : Object) : Object :=
  match o with
  | [] => [(key, value)]
  | (k, v) :: o' =>
      if String.eqb k key then (k, value) :: o'
      else (k, v) :: set key value o'
  end.

Fixpoint get (key : string) (o : Object) : option Var :=
  match o with
  | [] => None
  | (k, v) :: o' => if String.eqb k key then Some v else get key o'
  end.

Definition has (key : string) (o : Object) : bool :=
  match get key o with
  | Some _ => true
  | None => false
  end.

End JSON.

Import Libc Exempi.

(** ** The filename check and the two heuristic tests *)

Definition maxImageSize : Z := 128 * 1024 * 1024.
Definition maxFilenameSize : nat := 64.

(** [sanitized]: every character is a letter, a digit, or one of
    [_], [-], [.]. *)
Fixpoint sanitized (path : string) : bool :=
  match path with
  | EmptyString => true
  | String c rest =>
      if negb (isalpha c) && negb (isdigit c)
         && negb (Ascii.eqb c "_") && negb (Ascii.eqb c "-")
         && negb (Ascii.eqb c ".")
      then false
      else sanitized rest
  end.

(** [is_creator_photoshop] *)
Definition is_creator_photoshop (xmp : Xmp) : bool :=
  match xmp_get_property xmp NS_XAP "xmp:CreatorTool" with
  | Some prop => Z.eqb (strncmp prop "Adobe Photoshop " 16) 0
  | None => false
  end.

(** [is_modifiedDate_dissimilar] *)
Definition is_modifiedDate_dissimilar (xmp : Xmp) : bool :=
  match xmp_get_property_date xmp NS_XAP "xmp:CreateDate" with
  | None => false
  | Some created =>
      match xmp_get_property_date xmp NS_XAP "xmp:ModifyDate" with
      | None => false
      | Some modified =>
          let equal :=
            (year created =? year modified)
            && (month created =? month modified)
            && (day created =? day modified)
            && (hour created =? hour modified)
            && (minute created =? minute modified)
            && (second created =? second modified) in
          negb equal
      end
  end.

(** ** The request, the handler object and the world around them *)

(** The view of [HTTPServerRequest] that the handler reads: the
    segments that [URI::getPathSegments] finds in the request URI, the
    declared content length, the content type and the bytes that
    [stream().get()] yields before EOF. *)
Record HTTPServerRequest : Type := mkRequest {
  getPathSegments : list string;
  getContentLength64 : Z;
  getContentType : string;
  stream : list Byte.byte
}.

(** [HTTPMessage::UNKNOWN_CONTENT_LENGTH] *)
Definition UNKNOWN_CONTENT_LENGTH : Z := -1.

(** What the handler sets on [HTTPServerResponse]; [sent] is the
    object that [stringify] wrote to [response.send()]. *)
Record HTTPServerResponse : Type := mkResponse {
  chunkedTransferEncoding : bool;
  contentType : string;
  sent : option JSON.Object
}.

(** [class MyRequestHandler]: its one data member. *)
Record MyRequestHandler : Type := mkHandler {
  _basename : string
}.

(** The resources a request can leave behind: the files on disk, the
    [FILE] streams still open, the [xmp_init] calls not yet matched by
    [xmp_terminate], and the [XmpFilePtr] and [XmpPtr] handles not yet
    freed. *)
Record World : Type := mkWorld {
  disk : gmap string (list Byte.byte);
  open_streams : nat;
  xmp_sessions : nat;
  live_xmp_files : nat;
  live_xmps : nat
}.

(** What the platform answers during one request.
    - [mktemp] maps the template to the content of the buffer after
      the call: a fresh name, or the empty string on failure.
    - [fopen_succeeds] tells whether [fopen(name, "wb")] returns a
      stream rather than NULL.
    - [file_size_limit] is the number of bytes a file can take before
      [fputc] starts returning EOF ([None]: no limit).
    - [xmp_files_read] is what libexempi makes of the bytes of a file
      ([None]: [xmp_files_open_new] returns NULL). *)
Record Env : Type := mkEnv {
  mktemp : string -> string;
  fopen_succeeds : string -> bool;
  file_size_limit : option nat;
  xmp_files_read : list Byte.byte -> option XmpFile
}.

(** ** [validateRequest] *)

(** The five [return false] statements of [validateRequest], in source
    order, and its [return true]. *)
Inductive Cause : Type :=
| PathShape        (* segments.size() != 1 *)
| NameCharacters   (* ! sanitized(segments[0]) *)
| NameLength       (* segments[0].length() > maxFilenameSize *)
| ContentLength    (* unknown, or > maxImageSize *)
| ContentType.     (* != "application/x-www-form-urlencoded" *)

Inductive Validation : Type :=
| Rejected (cause : Cause)
| Accepted.

Definition accepted (v : Validation) : bool :=
  match v with
  | Accepted => true
  | Rejected _ => false
  end.

(** [validateRequest], with the statement it returns from: the result
    and the handler object afterwards ([_basename] is assigned between
    the name checks and the content checks).  [segments[0]] is read
    only once [segments.size()] is known to be 1. *)
Definition validateRequest_at (request : HTTPServerRequest)
    (this : MyRequestHandler) : Validation * MyRequestHandler :=
  let segments := getPathSegments request in
  if negb (List.length segments =? 1)%nat then (Rejected PathShape, this)
  else
    let segment0 := nth 0 segments EmptyString in
    if negb (sanitized segment0) then (Rejected NameCharacters, this)
    else if (maxFilenameSize <? String.length segment0)%nat
    then (Rejected NameLength, this)
    else
      let this := {| _basename := segment0 |} in
      if (getContentLength64 request =? UNKNOWN_CONTENT_LENGTH)
         || (maxImageSize <? getContentLength64 request)
      then (Rejected ContentLength, this)
      else if negb (String.eqb (getContentType request)
                      "application/x-www-form-urlencoded")
      then (Rejected ContentType, this)
      else (Accepted, this).

(** The [bool] that [validateRequest] returns. *)
Definition validateRequest (request : HTTPServerRequest)
    (this : MyRequestHandler) : bool * MyRequestHandler :=
  (accepted (fst (validateRequest_at request this)),
   snd (validateRequest_at request this)).

(** The Filename Sanitizer of the specification is the pair of name
    checks of [validateRequest]: [sanitized] and the length ceiling. *)
Definition sanitizer_accepts (candidate : string) : bool :=
  sanitized candidate
  && negb (maxFilenameSize <? String.length candidate)%nat.

(** ** The body of [handleRequest] as a computation

    The body of the [do { ... } while (0)] runs over the locals of
    [handleRequest] and the world.  A statement either goes on to the
    next one, or executes [break] (control passes to the statement
    after the loop), or has undefined behaviour. *)

Record Frame : Type := mkFrame {
  this : MyRequestHandler;
  obj : JSON.Object;
  tests : JSON.Object;
  response : HTTPServerResponse;
  world : World
}.

Inductive Flow (A : Type) : Type :=
| Next (a : A)
| Break
| Fault.

Arguments Next {A} a.
Arguments Break {A}.
Arguments Fault {A}.

Definition Body (A : Type) : Type := Frame -> Flow A * Frame.

#[global] Instance Body_ret : MRet Body :=
  fun A (a : A) fr => (Next a, fr).

#[global] Instance Body_bind : MBind Body :=
  fun A B (f : A -> Body B) (m : Body A) fr =>
    match m fr with
    | (Next a, fr') => f a fr'
    | (Break, fr') => (Break, fr')
    | (Fault, fr') => (Fault, fr')
    end.

Definition break {A : Type} : Body A := fun fr => (Break, fr).
Definition fault {A : Type} : Body A := fun fr => (Fault, fr).

Definition with_this (f : MyRequestHandler -> MyRequestHandler) : Body unit :=
  fun fr => (Next tt, mkFrame (f (this fr)) (obj fr) (tests fr) (response fr) (world fr)).
Definition with_obj (f : JSON.Object -> JSON.Object) : Body unit :=
  fun fr => (Next tt, mkFrame (this fr) (f (obj fr)) (tests fr) (response fr) (world fr)).
Definition with_tests (f : JSON.Object -> JSON.Object) : Body unit :=
  fun fr => (Next tt, mkFrame (this fr) (obj fr) (f (tests fr)) (response fr) (world fr)).
Definition with_response (f : HTTPServerResponse -> HTTPServerResponse) : Body unit :=
  fun fr => (Next tt, mkFrame (this fr) (obj fr) (tests fr) (f (response fr)) (world fr)).
Definition with_world (f : World -> World) : Body unit :=
  fun fr => (Next tt, mkFrame (this fr) (obj fr) (tests fr) (response fr) (f (world fr))).
Definition read {A : Type} (f : Frame -> A) : Body A :=
  fun fr => (Next (f fr), fr).

(** *** The calls made by the body *)

Definition obj_set (key : string) (value : JSON.Var) : Body unit :=
  with_obj (JSON.set key value).
Definition tests_set (key : string) (value : JSON.Var) : Body unit :=
  with_tests (JSON.set key value).

Definition setChunkedTransferEncoding (flag : bool) : Body unit :=
  with_response (fun r => mkResponse flag (contentType r) (sent r)).
Definition setContentType (mediaType : string) : Body unit :=
  with_response (fun r => mkResponse (chunkedTransferEncoding r) mediaType (sent r)).

(** The member call [validateRequest(request)] *)
Definition call_validateRequest (request : HTTPServerRequest) : Body bool :=
  fun fr =>
    let r := validateRequest request (this fr) in
    (Next (fst r), mkFrame (snd r) (obj fr) (tests fr) (response fr) (world fr)).

(** A [FILE *] is NULL or the stream of a named file. *)
Definition FILE_ptr : Type := option string.

(** [fopen(name, "wb")]: on success the file exists and is empty. *)
Definition fopen (env : Env) (name : string) : Body FILE_ptr :=
  if fopen_succeeds env name
  then
    with_world (fun w => mkWorld (<[name := []]> (disk w)) (S (open_streams w))
                           (xmp_sessions w) (live_xmp_files w) (live_xmps w)) ;;
    mret (Some name)
  else mret None.

(** [fputc(cc, tf)], its result discarded as in the source: the byte
    is appended unless the file is full; on a null stream the
    behaviour is undefined. *)
Definition fputc (env : Env) (cc : Byte.byte) (tf : FILE_ptr) : Body unit :=
  match tf with
  | None => fault
  | Some name =>
      with_world (fun w =>
        let content := default [] (disk w !! name) in
        let full :=
          match file_size_limit env with
          | Some limit => (limit <=? List.length content)%nat
          | None => false
          end in
        if full then w
        else mkWorld (<[name := (content ++ [cc])%list]> (disk w)) (open_streams w)
               (xmp_sessions w) (live_xmp_files w) (live_xmps w))
  end.

(** [fclose(tf)]: undefined on a null stream. *)
Definition fclose (tf : FILE_ptr) : Body unit :=
  match tf with
  | None => fault
  | Some _ =>
      with_world (fun w => mkWorld (disk w) (pred (open_streams w))
                             (xmp_sessions w) (live_xmp_files w) (live_xmps w))
  end.

(** [while ((cc = request.stream().get()) != EOF) fputc(cc, tf);] *)
Fixpoint copy_stream (env : Env) (input : list Byte.byte) (tf : FILE_ptr) : Body unit :=
  match input with
  | [] => mret tt
  | cc :: rest => fputc env cc tf ;; copy_stream env rest tf
  end.

Definition xmp_init : Body unit :=
  with_world (fun w => mkWorld (disk w) (open_streams w)
                         (S (xmp_sessions w)) (live_xmp_files w) (live_xmps w)).

Definition xmp_terminate : Body unit :=
  with_world (fun w => mkWorld (disk w) (open_streams w)
                         (pred (xmp_sessions w)) (live_xmp_files w) (live_xmps w)).

(** [xmp_files_open_new(name, XMP_OPEN_READ)]: NULL when the file is
    missing or the toolkit cannot open it, else a new handle. *)
Definition xmp_files_open_new (env : Env) (name : string) : Body (option XmpFile) :=
  w ← read world ;
  match disk w !! name ≫= xmp_files_read env with
  | None => mret None
  | Some xf =>
      with_world (fun w => mkWorld (disk w) (open_streams w)
                             (xmp_sessions w) (S (live_xmp_files w)) (live_xmps w)) ;;
      mret (Some xf)
  end.

Definition xmp_files_free (xf : XmpFile) : Body unit :=
  with_world (fun w => mkWorld (disk w) (open_streams w)
                         (xmp_sessions w) (pred (live_xmp_files w)) (live_xmps w)).

(** [xmp_files_get_new_xmp(xf)]: NULL, or a new packet handle. *)
Definition xmp_files_get_new_xmp (xf : XmpFile) : Body (option Xmp) :=
  match file_xmp xf with
  | None => mret None
  | Some xmp =>
      with_world (fun w => mkWorld (disk w) (open_streams w)
                             (xmp_sessions w) (live_xmp_files w) (S (live_xmps w))) ;;
      mret (Some xmp)
  end.

Definition xmp_free (xmp : Xmp) : Body unit :=
  with_world (fun w => mkWorld (disk w) (open_streams w)
                         (xmp_sessions w) (live_xmp_files w) (pred (live_xmps w))).

(** ** [handleRequest] *)

(** The body of the [do { ... } while (0)]. *)
Definition handleRequest_body (env : Env) (request : HTTPServerRequest) : Body unit :=
  obj_set "is_valid" (JSON.VBool false) ;;
  setChunkedTransferEncoding true ;;
  setContentType "application/json" ;;
  valid ← call_validateRequest request ;
  (if negb valid then break else mret tt) ;;
  name ← read (fun fr => _basename (this fr)) ;
  obj_set "name" (JSON.VString name) ;;
  let tmpfile := mktemp env "/tmp/picserver.XXXXXX" in
  (if Ascii.eqb (cstr_head tmpfile) NUL then break else mret tt) ;;
  tf ← fopen env tmpfile ;
  copy_stream env (stream request) tf ;;
  fclose tf ;;
  xmp_init ;;
  xf ← xmp_files_open_new env tmpfile ;
  match xf with
  | None => break
  | Some xf =>
      xmp ← xmp_files_get_new_xmp xf ;
      match xmp with
      | None => xmp_files_free xf ;; break
      | Some xmp =>
          let type := file_type xf in
          if negb (XmpFileType_eqb type XMP_FT_JPEG) then break
          else
            obj_set "is_valid" (JSON.VBool true) ;;
            tests_set "creator_tool_is_photoshop"
              (JSON.VBool (is_creator_photoshop xmp)) ;;
            tests_set "create_modify_mismatch"
              (JSON.VBool (is_modifiedDate_dissimilar xmp)) ;;
            xmp_free xmp ;;
            xmp_terminate ;;
            t ← read tests ;
            obj_set "tests" (JSON.VObject t)
      end
  end.

(** How a call of [handleRequest] ends: it returns, having sent the
    response, or it ran into undefined behaviour (a null [FILE *]
    handed to [fputc] or [fclose]), which on the platform is a fault
    of the whole server process. *)
Inductive Outcome : Type :=
| Responded (r : HTTPServerResponse) (this' : MyRequestHandler) (w' : World)
| Crashed.

(** [handleRequest]: the loop body, then
    [obj.stringify(response.send(), 2)]. *)
Definition handleRequest (env : Env) (request : HTTPServerRequest)
    (this0 : MyRequestHandler) (w : World) : Outcome :=
  let fr0 := mkFrame this0 [] [] (mkResponse false EmptyString None) w in
  match handleRequest_body env request fr0 with
  | (Fault, _) => Crashed
  | (_, fr) =>
      Responded
        (mkResponse (chunkedTransferEncoding (response fr))
           (contentType (response fr)) (Some (obj fr)))
        (this fr) (world fr)
  end.

(** The JSON object in the body of the response, when there is one. *)
Definition verdict (o : Outcome) : option JSON.Object :=
  match o with
  | Responded r _ _ => sent r
  | Crashed => None
  end.

(** ** Fixtures *)

(** A packet holding, in the XMP basic schema, the given creator tool
    and creation and modification dates ([None]: property absent). *)
Definition xmp_fixture (creator : option string)
    (created modified : option XmpDateTime) : Xmp :=
  mkXmp
    (fun ns name =>
       if String.eqb ns NS_XAP && String.eqb name "xmp:CreatorTool"
       then creator else None)
    (fun ns name =>
       if negb (String.eqb ns NS_XAP) then None
       else if String.eqb name "xmp:CreateDate" then created
       else if String.eqb name "xmp:ModifyDate" then modified
       else None).

Definition pi_day : XmpDateTime := mkXmpDateTime 2021 3 14 15 9 26 0 0 0 0.
Definition pi_day_later : XmpDateTime := mkXmpDateTime 2021 3 14 15 9 27 0 0 0 0.
Definition pi_day_elsewhere : XmpDateTime :=
  mkXmpDateTime 2021 3 14 15 9 26 (-1) 5 30 123456789.

(** A world with nothing in it, and a platform on which every call
    succeeds and libexempi reads every file as [xf]. *)
Definition empty_world : World := mkWorld ∅ 0 0 0 0.

Definition willing_env (xf : option XmpFile) : Env :=
  mkEnv (fun _ => "/tmp/picserver.a1B2c3") (fun _ => true) None (fun _ => xf).

(** The same platform, except that [fopen] returns NULL. *)
Definition unwritable_env (xf : option XmpFile) : Env :=
  mkEnv (fun _ => "/tmp/picserver.a1B2c3") (fun _ => false) None (fun _ => xf).

Definition form_urlencoded : string := "application/x-www-form-urlencoded".

Definition four_bytes : list Byte.byte := [Byte.xff; Byte.xd8; Byte.xff; Byte.xe1].

(** An upload of four bytes under the name [name]. *)
Definition upload (name : string) : HTTPServerRequest :=
  mkRequest [name] 4 form_urlencoded four_bytes.

(** One request for each cause of rejection. *)
Definition nested_path : HTTPServerRequest :=
  mkRequest ["photos"; "a.jpg"] 4 form_urlencoded four_bytes.
Definition spaced_name : HTTPServerRequest := upload "a b.jpg".
Definition oversized : HTTPServerRequest :=
  mkRequest ["a.jpg"] 134217729 form_urlencoded four_bytes.
Definition unknown_length : HTTPServerRequest :=
  mkRequest ["a.jpg"] UNKNOWN_CONTENT_LENGTH form_urlencoded four_bytes.
Definition multipart : HTTPServerRequest :=
  mkRequest ["a.jpg"] 4 "multipart/form-data" four_bytes.

Definition photoshopped : Xmp :=
  xmp_fixture (Some "Adobe Photoshop 24.0") (Some pi_day) (Some pi_day).

Definition jpeg_file : XmpFile := mkXmpFile (Some photoshopped) XMP_FT_JPEG.
Definition png_file : XmpFile := mkXmpFile (Some photoshopped) XMP_FT_PNG.

Definition new_handler : MyRequestHandler := mkHandler EmptyString.

(** ** Vocabulary of the specification *)

(** The allow-list [[A-Za-z0-9_.-]], character by character. *)
Definition allowed_characters : list ascii :=
  list_ascii_of_string
    "ABCDEFGHIJKLMNOPQRSTUVWXYZabcdefghijklmnopqrstuvwxyz0123456789_.-".

Definition allowed (c : ascii) : Prop := In c allowed_characters.

Definition all_allowed (candidate : string) : Prop :=
  forall c, In c (list_ascii_of_string candidate) -> allowed c.

(** The signature prefix of the editing software. *)
Definition photoshop_signature : string := "Adobe Photoshop ".

Definition begins_with (signature value : string) : Prop :=
  exists rest, value = String.append signature rest.

(** A string free of NUL characters. *)
Fixpoint nul_free (s : string) : Prop :=
  match s with
  | EmptyString => True
  | String c rest => c <> NUL /\ nul_free rest
  end.

(** Two timestamps differ in one of year, month, day, hour, minute,
    second. *)
Definition differ_to_the_second (a b : XmpDateTime) : Prop :=
  year a <> year b \/ month a <> month b \/ day a <> day b
  \/ hour a <> hour b \/ minute a <> minute b \/ second a <> second b.

(** The name [handleRequest] stages the upload under, and the bytes
    that reach that file when it could be opened: the whole stream, or
    as much of it as the file size limit lets through. *)
Definition tmpfile_of (env : Env) : string := mktemp env "/tmp/picserver.XXXXXX".

Definition staged_bytes (env : Env) (request : HTTPServerRequest) : list Byte.byte :=
  match file_size_limit env with
  | Some limit => firstn limit (stream request)
  | None => stream request
  end.

(** What [fputc] lets through of [input] into a file that already
    holds [held] bytes. *)
Definition let_through (env : Env) (held : nat) (input : list Byte.byte) : list Byte.byte :=
  match file_size_limit env with
  | Some limit => firstn (limit - held) input
  | None => input
  end.

(** The two failure verdicts and the success verdict. *)
Definition verdict_invalid : JSON.Object := [("is_valid", JSON.VBool false)].

Definition verdict_invalid_named (name : string) : JSON.Object :=
  [("is_valid", JSON.VBool false); ("name", JSON.VString name)].

Definition verdict_valid (name : string) (xmp : Xmp) : JSON.Object :=
  [("is_valid", JSON.VBool true);
   ("name", JSON.VString name);
   ("tests", JSON.VObject
      [("creator_tool_is_photoshop", JSON.VBool (is_creator_photoshop xmp));
       ("create_modify_mismatch", JSON.VBool (is_modifiedDate_dissimilar xmp))])].

(** The response that carries the object [o]. *)
Definition json_response (o : JSON.Object) : HTTPServerResponse :=
  mkResponse true "application/json" (Some o).

(** The world [w] with the staged file added and with that many more
    toolkit sessions, file handles and packet handles. *)
Definition left_behind (env : Env) (request : HTTPServerRequest) (w : World)
    (sessions files packets : nat) : World :=
  mkWorld (<[tmpfile_of env := staged_bytes env request]> (disk w))
    (open_streams w) (sessions + xmp_sessions w)
    (files + live_xmp_files w) (packets + live_xmps w).

(** Every transient resource of the request is gone: the disk holds
    what it held before and no stream, toolkit session or handle is
    left over. *)
Definition all_released (before after : World) : Prop :=
  disk after = disk before
  /\ open_streams after = open_streams before
  /\ xmp_sessions after = xmp_sessions before
  /\ live_xmp_files after = live_xmp_files before
  /\ live_xmps after = live_xmps before.

(** ** The server: [MyRequestHandlerFactory] and [WebServerApp::main] *)

(** [createRequestHandler]: [new MyRequestHandler], whose [_basename]
    is the default-constructed, empty [std::string]. *)
Definition createRequestHandler : MyRequestHandler := mkHandler EmptyString.

(** [static_cast<UInt16>] of an [unsigned int]: the low 16 bits. *)
Definition to_UInt16 (v : Z) : Z := v mod 65536.

(** [config().getUInt(key, deflt)]: the configured value when the key
    is set, else the default. *)
Definition getUInt (configured : option Z) (deflt : Z) : Z :=
  match configured with
  | Some v => v
  | None => deflt
  end.

(** The port that [main] hands to [HTTPServer]:
    [static_cast<UInt16>(config().getUInt("port", 8080))]. *)
Definition main_port (configured : option Z) : Z :=
  to_UInt16 (getUInt configured 8080).

(** ** Further vocabulary *)

(** The keys of an object, in order. *)
Definition keys (o : JSON.Object) : list string := map fst o.

(** The platform [env] without a file size limit, and the request
    [request] with its body cut after [n] bytes. *)
Definition unlimited (env : Env) : Env :=
  mkEnv (mktemp env) (fopen_succeeds env) None (xmp_files_read env).

Definition truncated (n : nat) (request : HTTPServerRequest) : HTTPServerRequest :=
  mkRequest (getPathSegments request) (getContentLength64 request)
    (getContentType request) (firstn n (stream request)).

(** The packet that libexempi finds in the staged bytes when it reads
    them as a JPEG file: the one case in which the tests run. *)
Definition jpeg_packet (env : Env) (request : HTTPServerRequest) : option Xmp :=
  match xmp_files_read env (staged_bytes env request) with
  | Some xf =>
      match file_xmp xf with
      | Some xmp => if XmpFileType_eqb (file_type xf) XMP_FT_JPEG then Some xmp else None
      | None => None
      end
  | None => None
  end.

(** * Properties *)

(** ** Characters and C strings *)

Lemma allowed_character_test (c : ascii) :
  negb (isalpha c) && negb (isdigit c)
  && negb (Ascii.eqb c "_") && negb (Ascii.eqb c "-") && negb (Ascii.eqb c ".")
  = negb (existsb (Ascii.eqb c) allowed_characters).
Proof.
  destruct c as [b0 b1 b2 b3 b4 b5 b6 b7].
  destruct b0, b1, b2, b3, b4, b5, b6, b7; vm_compute; reflexivity.
Qed.

Lemma allowed_existsb (c : ascii) :
  existsb (Ascii.eqb c) allowed_characters = true <-> allowed c.
Proof.
  unfold allowed. rewrite existsb_exists. split.
  - intros [x [Hin Heq]]. apply Ascii.eqb_eq in Heq. subst x. exact Hin.
  - intros Hin. exists c. split; [exact Hin | apply Ascii.eqb_refl].
Qed.

Lemma sanitized_all_allowed (path : string) :
  sanitized path = true <-> all_allowed path.
Proof.
  unfold all_allowed. induction path as [| c rest IH]; simpl.
  - split; [intros _ c [] | reflexivity].
  - rewrite allowed_character_test.
    destruct (existsb (Ascii.eqb c) allowed_characters) eqn:E; simpl.
    + rewrite IH. apply allowed_existsb in E. split.
      * intros H x [<- | Hx]; [exact E | apply H, Hx].
      * intros H x Hx. apply H. right. exact Hx.
    + split; [discriminate |].
      intros H. assert (Hc : allowed c) by (apply H; left; reflexivity).
      apply allowed_existsb in Hc. congruence.
Qed.

Lemma uchar_inj (a b : ascii) : uchar a = uchar b -> a = b.
Proof.
  unfold uchar. intros H. apply N2Z.inj in H.
  rewrite <- (ascii_N_embedding a), <- (ascii_N_embedding b). now rewrite H.
Qed.

(** [strncmp] against a NUL-free string, over its whole length, is 0
    exactly on the strings that begin with it. *)
Lemma strncmp_begins_with (signature : string) :
  nul_free signature ->
  forall value,
    strncmp value signature (String.length signature) = 0
    <-> begins_with signature value.
Proof.
  unfold begins_with.
  induction signature as [| a sig IH]; intros Hnul value.
  - simpl. split; [intros _; exists value; reflexivity | reflexivity].
  - destruct Hnul as [Ha Hsig]. cbn [String.length strncmp cstr_head cstr_tail].
    destruct value as [| c value']; cbn [cstr_head cstr_tail].
    + destruct (Ascii.eqb_spec NUL a) as [E | E]; [congruence |]. simpl. split.
      * intros H. exfalso. apply E. apply uchar_inj. lia.
      * intros [rest H]. discriminate H.
    + destruct (Ascii.eqb_spec c a) as [E | E]; simpl.
      * subst c. destruct (Ascii.eqb_spec a NUL) as [E' | E']; [congruence |].
        rewrite (IH Hsig value'). split.
        -- intros [rest ->]. exists rest. reflexivity.
        -- intros [rest H]. exists rest. now inversion H.
      * split.
        -- intros H. exfalso. apply E. apply uchar_inj. lia.
        -- intros [rest H]. inversion H. congruence.
Qed.

Lemma photoshop_signature_nul_free : nul_free photoshop_signature.
Proof. unfold photoshop_signature, NUL. simpl. repeat split; discriminate. Qed.

(** ** The Filename Sanitizer *)

(** C5: the Sanitizer (the character check [sanitized] and the length
    ceiling of [validateRequest]) accepts a candidate name if and only
    if every character of it is in [[A-Za-z0-9_.-]] and it has at most
    64 characters. *)
Theorem sanitizer_accepts_iff_allowed_and_short (candidate : string) :
  sanitizer_accepts candidate = true
  <-> all_allowed candidate /\ (String.length candidate <= 64)%nat.
Proof.
  unfold sanitizer_accepts, maxFilenameSize.
  rewrite andb_true_iff, sanitized_all_allowed, negb_true_iff, Nat.ltb_ge.
  reflexivity.
Qed.

(** C10: the Sanitizer accepts the empty string, in its character
    check and as a whole; a request without a path segment is turned
    down by the segment-count check, and a validator handed one empty
    segment (with an acceptable length and content type) accepts it. *)
Theorem sanitizer_accepts_empty_name :
  sanitized EmptyString = true
  /\ sanitizer_accepts EmptyString = true
  /\ (forall length type body this,
        validateRequest_at (mkRequest [] length type body) this
        = (Rejected PathShape, this))
  /\ (forall body this,
        validateRequest (mkRequest [EmptyString] 0 form_urlencoded body) this
        = (true, mkHandler EmptyString)).
Proof. repeat split. Qed.

(** ** The Request Validator *)

Lemma sanitizer_accepts_false (segment : string) :
  sanitizer_accepts segment = false
  <-> sanitized segment = false
      \/ (maxFilenameSize <? String.length segment)%nat = true.
Proof.
  unfold sanitizer_accepts.
  destruct (sanitized segment), (maxFilenameSize <? String.length segment)%nat;
    simpl; intuition congruence.
Qed.

Lemma sanitizer_accepts_true (segment : string) :
  sanitizer_accepts segment = true
  <-> sanitized segment = true
      /\ (maxFilenameSize <? String.length segment)%nat = false.
Proof.
  unfold sanitizer_accepts.
  destruct (sanitized segment), (maxFilenameSize <? String.length segment)%nat;
    simpl; intuition congruence.
Qed.

(** The handler object after [validateRequest]: [_basename] is the
    segment once both name checks passed, and is untouched before. *)
Lemma validateRequest_basename (request : HTTPServerRequest) (this : MyRequestHandler) :
  match fst (validateRequest_at request this) with
  | Rejected PathShape | Rejected NameCharacters | Rejected NameLength =>
      snd (validateRequest_at request this) = this
  | _ =>
      exists segment,
        getPathSegments request = [segment]
        /\ sanitizer_accepts segment = true
        /\ snd (validateRequest_at request this) = mkHandler segment
  end.
Proof.
  unfold validateRequest_at. cbn zeta.
  destruct (getPathSegments request) as [| segment [| ? ?]];
    cbn [fst snd List.length Nat.eqb negb nth]; trivial.
  destruct (sanitized segment) eqn:Es; cbn [fst snd negb]; trivial.
  destruct (maxFilenameSize <? String.length segment)%nat eqn:El;
    cbn [fst snd]; trivial.
  assert (Hs : sanitizer_accepts segment = true)
    by (apply sanitizer_accepts_true; split; assumption).
  destruct (_ || _); simpl; [eauto |].
  destruct (negb _); simpl; eauto.
Qed.

(** C6: the checks run in the stated order and stop at the first one
    that fails: the request is turned down for its path shape exactly
    when it has not one segment; for its name exactly when the single
    segment fails the Sanitizer; for its length exactly when the name
    passed and the declared length is unknown or above 134217728; for
    its type exactly when name and length passed and the content type
    is not [application/x-www-form-urlencoded]; and it is accepted
    exactly when there is one segment, the Sanitizer accepts it, the
    length is known and at most 134217728, and the content type is
    that one. *)
Theorem validateRequest_checks_in_order
    (request : HTTPServerRequest) (this : MyRequestHandler) :
  let segments := getPathSegments request in
  let length := getContentLength64 request in
  let type := getContentType request in
  let stopped := fst (validateRequest_at request this) in
  (stopped = Rejected PathShape <-> List.length segments <> 1%nat)
  /\ (stopped = Rejected NameCharacters \/ stopped = Rejected NameLength
      <-> exists segment,
            segments = [segment] /\ sanitizer_accepts segment = false)
  /\ (stopped = Rejected ContentLength
      <-> exists segment,
            segments = [segment] /\ sanitizer_accepts segment = true
            /\ (length = UNKNOWN_CONTENT_LENGTH \/ length > 134217728))
  /\ (stopped = Rejected ContentType
      <-> exists segment,
            segments = [segment] /\ sanitizer_accepts segment = true
            /\ length <> UNKNOWN_CONTENT_LENGTH /\ length <= 134217728
            /\ type <> "application/x-www-form-urlencoded")
  /\ (fst (validateRequest request this) = true
      <-> exists segment,
            segments = [segment] /\ sanitizer_accepts segment = true
            /\ length <> UNKNOWN_CONTENT_LENGTH /\ length <= 134217728
            /\ type = "application/x-www-form-urlencoded").
Proof.
  unfold validateRequest, validateRequest_at, maxImageSize. cbn zeta.
  destruct (getPathSegments request) as [| segment [| second others]];
    cbn [fst snd accepted List.length Nat.eqb negb nth].
  1, 3: repeat split; try discriminate; try lia; try tauto;
        intros; repeat match goal with
                       | H : _ \/ _ |- _ => destruct H
                       | H : exists _, _ |- _ => destruct H as [? [? ?]]
                       end; discriminate.
  destruct (sanitized segment) eqn:Es; cbn [negb fst accepted];
    [destruct (maxFilenameSize <? String.length segment)%nat eqn:El;
     cbn [fst accepted] |].
  2: { (* both name checks passed *)
    assert (Hs : sanitizer_accepts segment = true)
      by (apply sanitizer_accepts_true; split; assumption).
    destruct (Z.eqb_spec (getContentLength64 request) UNKNOWN_CONTENT_LENGTH) as [Eu | Eu];
      destruct (Z.ltb_spec (128 * 1024 * 1024) (getContentLength64 request)) as [Em | Em];
      cbn [orb fst accepted];
      try (destruct (String.eqb_spec (getContentType request)
                       "application/x-www-form-urlencoded") as [Et | Et];
           cbn [negb fst accepted]);
      (split; [split; [discriminate | intros H; exfalso; apply H; reflexivity] |]);
      (split; [split; [intros [H | H]; discriminate
                      | intros [x [Hx Hf]]; injection Hx as <-; congruence] |]);
      (split; [split; [try discriminate; intros _; exists segment;
                       repeat split; trivial; first [left; assumption | right; lia]
                      | try (intros _; reflexivity);
                        intros [x [Hx [_ [H | H]]]]; first [congruence | lia]] |]);
      (split; split; try discriminate; try (intros _; reflexivity);
       try (intros _; exists segment; repeat split; trivial; lia);
       intros [x [Hx [_ [H1 [H2 H3]]]]]; first [congruence | lia]). }
  all: assert (Hs : sanitizer_accepts segment = false)
         by (apply sanitizer_accepts_false; auto);
       (split; [split; [discriminate | intros H; exfalso; apply H; reflexivity] |]);
       (split; [split; [intros _; exists segment; split; trivial
                       | intros _; auto] |]);
       repeat split; try discriminate;
       intros [x [Hx [Hf _]]]; injection Hx as <-; congruence.
Qed.

(** ** The heuristic tests *)

(** C8: [creator_tool_is_photoshop] is true exactly when the
    creator-tool property is present and its value begins with
    ["Adobe Photoshop "]; it is false exactly when the property is
    absent or its value begins otherwise.  The test is a total boolean
    function: there is no third outcome. *)
Theorem is_creator_photoshop_iff_signature (xmp : Xmp) :
  let property := xmp_get_property xmp NS_XAP "xmp:CreatorTool" in
  (is_creator_photoshop xmp = true
   <-> exists value,
         property = Some value /\ begins_with "Adobe Photoshop " value)
  /\ (is_creator_photoshop xmp = false
      <-> property = None
          \/ exists value,
               property = Some value /\ ~ begins_with "Adobe Photoshop " value).
Proof.
  cbn zeta. unfold is_creator_photoshop.
  pose proof (strncmp_begins_with photoshop_signature photoshop_signature_nul_free) as P.
  change (String.length photoshop_signature) with 16%nat in P.
  change photoshop_signature with "Adobe Photoshop " in P.
  destruct (xmp_get_property xmp NS_XAP "xmp:CreatorTool") as [value |].
  - specialize (P value).
    destruct (Z.eqb_spec (strncmp value "Adobe Photoshop " 16) 0) as [E | E].
    + split; split; try discriminate.
      * intros _. exists value. split; [reflexivity | apply P, E].
      * intros _. reflexivity.
      * intros [H | [v [Hv Hn]]]; [discriminate |].
        injection Hv as <-. exfalso. apply Hn, P, E.
    + split; split; try discriminate.
      * intros [v [Hv Hb]]. injection Hv as <-. exfalso. apply E, P, Hb.
      * intros _. right. exists value. split; [reflexivity |].
        intros Hb. apply E, P, Hb.
      * intros _. reflexivity.
  - split; split; try discriminate.
    + intros [v [Hv _]]. discriminate.
    + intros _. left. reflexivity.
    + intros _. reflexivity.
Qed.

(** The fixtures of the specification, evaluated: the exact prefix, a
    value one character short of it, another tool, and no property. *)
Lemma is_creator_photoshop_fixtures :
  is_creator_photoshop (xmp_fixture (Some "Adobe Photoshop 24.0") None None) = true
  /\ is_creator_photoshop (xmp_fixture (Some "Adobe Photoshop") None None) = false
  /\ is_creator_photoshop (xmp_fixture (Some "GIMP 2.10") None None) = false
  /\ is_creator_photoshop (xmp_fixture None None None) = false.
Proof. repeat split. Qed.

(** C7: [create_modify_mismatch] is false when the creation or the
    modification timestamp is absent; when both are present it is true
    exactly when they differ in year, month, day, hour, minute or
    second, whatever their sub-second and timezone fields. *)
Theorem is_modifiedDate_dissimilar_iff_differ (xmp : Xmp) :
  let created := xmp_get_property_date xmp NS_XAP "xmp:CreateDate" in
  let modified := xmp_get_property_date xmp NS_XAP "xmp:ModifyDate" in
  (created = None \/ modified = None -> is_modifiedDate_dissimilar xmp = false)
  /\ (forall c m,
        created = Some c -> modified = Some m ->
        (is_modifiedDate_dissimilar xmp = true <-> differ_to_the_second c m)).
Proof.
  cbn zeta. unfold is_modifiedDate_dissimilar, differ_to_the_second. split.
  - intros [-> | H]; [reflexivity |].
    destruct (xmp_get_property_date xmp NS_XAP "xmp:CreateDate");
      [rewrite H |]; reflexivity.
  - intros c m -> ->. cbn zeta. rewrite negb_true_iff.
    repeat rewrite andb_false_iff. repeat rewrite Z.eqb_neq. tauto.
Qed.

(** The four fixtures of the specification, evaluated: both
    timestamps absent, one absent, both equal to the second (and
    differing below it and in the timezone), and differing. *)
Lemma is_modifiedDate_dissimilar_fixtures :
  is_modifiedDate_dissimilar (xmp_fixture None None None) = false
  /\ is_modifiedDate_dissimilar (xmp_fixture None (Some pi_day) None) = false
  /\ is_modifiedDate_dissimilar (xmp_fixture None (Some pi_day) (Some pi_day_elsewhere))
     = false
  /\ is_modifiedDate_dissimilar (xmp_fixture None (Some pi_day) (Some pi_day_later))
     = true.
Proof. repeat split. Qed.

Lemma is_modifiedDate_dissimilar_iff_differ_witness :
  is_modifiedDate_dissimilar (xmp_fixture None (Some pi_day) None) = false
  /\ is_modifiedDate_dissimilar (xmp_fixture None (Some pi_day) (Some pi_day_later))
     = true.
Proof.
  split.
  - apply (proj1 (is_modifiedDate_dissimilar_iff_differ
                    (xmp_fixture None (Some pi_day) None))).
    right. reflexivity.
  - apply (proj2 (is_modifiedDate_dissimilar_iff_differ
                    (xmp_fixture None (Some pi_day) (Some pi_day_later)))
             pi_day pi_day_later eq_refl eq_refl).
    unfold differ_to_the_second. simpl.
    right. right. right. right. right. discriminate.
Defined.

(** ** Running [handleRequest] *)

Ltac run_body :=
  unfold handleRequest, handleRequest_body, tmpfile_of in *;
  unfold mbind, mret, Body_bind, Body_ret, call_validateRequest, obj_set, tests_set,
    setChunkedTransferEncoding, setContentType, read, break,
    with_obj, with_tests, with_response;
  cbn [this obj tests response world fst snd JSON.set String.eqb Ascii.eqb Bool.eqb
       chunkedTransferEncoding contentType sent negb].

(** The copy loop on an open stream: the file receives what [fputc]
    lets through, and nothing else changes. *)
Lemma copy_stream_open env name input : forall fr held,
  disk (world fr) !! name = Some held ->
  copy_stream env input (Some name) fr
  = (Next tt,
     mkFrame (this fr) (obj fr) (tests fr) (response fr)
       (mkWorld
          (<[name := (held ++ let_through env (List.length held) input)%list]>
             (disk (world fr)))
          (open_streams (world fr)) (xmp_sessions (world fr))
          (live_xmp_files (world fr)) (live_xmps (world fr)))).
Proof.
  induction input as [| cc rest IH]; intros fr held Hheld.
  - assert (E : let_through env (List.length held) [] = []).
    { unfold let_through.
      destruct (file_size_limit env); [apply firstn_nil | reflexivity]. }
    rewrite E, app_nil_r, (insert_id _ _ _ Hheld).
    destruct fr as [t o ts r [d a b c e]]. reflexivity.
  - cbn [copy_stream]. unfold mbind, Body_bind, fputc, with_world.
    rewrite Hheld. change (default [] (Some held)) with held.
    unfold let_through.
    destruct (file_size_limit env) as [limit |] eqn:El.
    + destruct (Nat.leb_spec limit (List.length held)) as [Hfull | Hroom].
      * rewrite (IH _ held) by assumption. unfold let_through. rewrite El.
        replace (limit - List.length held)%nat with 0%nat by lia.
        reflexivity.
      * rewrite (IH _ (held ++ [cc])%list) by (cbn; apply lookup_insert_eq).
        cbn. unfold let_through. rewrite El.
        rewrite insert_insert_eq, length_app. cbn.
        replace (limit - List.length held)%nat
          with (S (limit - (List.length held + 1)))%nat by lia.
        cbn. rewrite <- app_assoc. reflexivity.
    + rewrite (IH _ (held ++ [cc])%list) by (cbn; apply lookup_insert_eq).
      cbn. unfold let_through. rewrite El.
      rewrite insert_insert_eq, <- app_assoc. reflexivity.
Qed.

(** The copy loop on a null stream: undefined at the first byte. *)
Lemma copy_stream_null env input fr :
  fst (copy_stream env input None fr) = Fault
  \/ copy_stream env input None fr = (Next tt, fr).
Proof. destruct input as [| cc rest]; [right | left]; reflexivity. Qed.

(** The four ways through [handleRequest]. *)

Lemma handleRequest_rejected env request this0 w :
  fst (validateRequest request this0) = false ->
  handleRequest env request this0 w
  = Responded (json_response verdict_invalid) (snd (validateRequest request this0)) w.
Proof. intros Hv. run_body. rewrite Hv. reflexivity. Qed.

Lemma handleRequest_no_tmpfile env request this0 w :
  fst (validateRequest request this0) = true ->
  cstr_head (tmpfile_of env) = NUL ->
  handleRequest env request this0 w
  = Responded
      (json_response
         (verdict_invalid_named (_basename (snd (validateRequest request this0)))))
      (snd (validateRequest request this0)) w.
Proof. intros Hv Ht. run_body. rewrite Hv, Ht. reflexivity. Qed.

Lemma handleRequest_fopen_null env request this0 w :
  fst (validateRequest request this0) = true ->
  cstr_head (tmpfile_of env) <> NUL ->
  fopen_succeeds env (tmpfile_of env) = false ->
  handleRequest env request this0 w = Crashed.
Proof.
  intros Hv Ht Hf. run_body. rewrite Hv. cbn [negb].
  destruct (Ascii.eqb_spec (cstr_head (mktemp env "/tmp/picserver.XXXXXX")) NUL)
    as [E | _]; [contradiction |].
  unfold fopen. rewrite Hf. unfold mret, Body_ret.
  match goal with
  | |- context [copy_stream env ?i None ?fr] =>
      destruct (copy_stream_null env i fr) as [H | H]
  end.
  - destruct (copy_stream _ _ _ _) as [[| |] fr']; try discriminate H. reflexivity.
  - rewrite H. reflexivity.
Qed.

Lemma handleRequest_staged env request this0 w :
  fst (validateRequest request this0) = true ->
  cstr_head (tmpfile_of env) <> NUL ->
  fopen_succeeds env (tmpfile_of env) = true ->
  let this' := snd (validateRequest request this0) in
  let named := json_response (verdict_invalid_named (_basename this')) in
  handleRequest env request this0 w
  = match xmp_files_read env (staged_bytes env request) with
    | None => Responded named this' (left_behind env request w 1 0 0)
    | Some xf =>
        match file_xmp xf with
        | None => Responded named this' (left_behind env request w 1 0 0)
        | Some xmp =>
            if XmpFileType_eqb (file_type xf) XMP_FT_JPEG
            then Responded (json_response (verdict_valid (_basename this') xmp))
                   this' (left_behind env request w 0 1 0)
            else Responded named this' (left_behind env request w 1 1 1)
        end
    end.
Proof.
  intros Hv Ht Hf. cbn zeta. run_body. rewrite Hv. cbn [negb].
  destruct (Ascii.eqb_spec (cstr_head (mktemp env "/tmp/picserver.XXXXXX")) NUL)
    as [E | _]; [contradiction |].
  unfold fopen. rewrite Hf.
  unfold mbind, mret, Body_bind, Body_ret, with_world.
  cbn [this obj tests response world].
  erewrite copy_stream_open by (cbn [world disk]; apply lookup_insert_eq).
  cbn [this obj tests response world disk open_streams xmp_sessions live_xmp_files
       live_xmps fclose xmp_init with_world].
  unfold with_world, xmp_files_open_new, read.
  unfold mbind at 1 2 3. unfold mret, Body_bind, Body_ret, with_world.
  cbn [this obj tests response world disk open_streams xmp_sessions live_xmp_files
       live_xmps Init.Nat.pred].
  rewrite insert_insert_eq, lookup_insert_eq.
  assert (Es : ([] ++ let_through env (List.length (@nil Byte.byte)) (stream request))%list
               = staged_bytes env request).
  { unfold let_through, staged_bytes. cbn [List.length app].
    destruct (file_size_limit env); [rewrite Nat.sub_0_r |]; reflexivity. }
  rewrite Es. cbn [option_bind mbind].
  destruct (xmp_files_read env (staged_bytes env request)) as [xf |]; [| reflexivity].
  unfold xmp_files_get_new_xmp, xmp_files_free, xmp_free, xmp_terminate.
  destruct (file_xmp xf) as [xmp |]; [| reflexivity].
  destruct (XmpFileType_eqb (file_type xf) XMP_FT_JPEG); reflexivity.
Qed.

Lemma XmpFileType_eqb_eq (a b : XmpFileType) :
  XmpFileType_eqb a b = true <-> a = b.
Proof. destruct a, b; simpl; split; congruence. Qed.

(** A request that [validateRequest] accepts has one segment, which
    the Sanitizer accepts and which becomes [_basename]. *)
Lemma validateRequest_accepted (request : HTTPServerRequest) (this0 : MyRequestHandler) :
  fst (validateRequest request this0) = true ->
  exists segment,
    getPathSegments request = [segment]
    /\ sanitizer_accepts segment = true
    /\ snd (validateRequest request this0) = mkHandler segment.
Proof.
  unfold validateRequest. cbn [fst snd]. intros Hv.
  pose proof (validateRequest_basename request this0) as Hb.
  destruct (fst (validateRequest_at request this0)) as [[| | | |] |];
    try discriminate Hv.
  exact Hb.
Qed.

(** The verdict comes in three shapes: the bare failure when
    [validateRequest] refuses, and otherwise the named failure or the
    success with its two test results. *)
Lemma verdict_shapes env request this0 w o :
  verdict (handleRequest env request this0 w) = Some o ->
  let name := _basename (snd (validateRequest request this0)) in
  (fst (validateRequest request this0) = false /\ o = verdict_invalid)
  \/ (fst (validateRequest request this0) = true
      /\ (o = verdict_invalid_named name \/ exists xmp, o = verdict_valid name xmp)).
Proof.
  cbn zeta. intros Ho.
  destruct (fst (validateRequest request this0)) eqn:Hv.
  - right. split; [reflexivity |].
    destruct (Ascii.eqb_spec (cstr_head (tmpfile_of env)) NUL) as [Ht | Ht].
    + rewrite (handleRequest_no_tmpfile _ _ _ _ Hv Ht) in Ho.
      injection Ho as <-. left. reflexivity.
    + destruct (fopen_succeeds env (tmpfile_of env)) eqn:Hf.
      * rewrite (handleRequest_staged _ _ _ _ Hv Ht Hf) in Ho.
        destruct (xmp_files_read env (staged_bytes env request)) as [xf |];
          [destruct (file_xmp xf) as [xmp |];
           [destruct (XmpFileType_eqb (file_type xf) XMP_FT_JPEG) |] |];
          injection Ho as <-; eauto.
      * rewrite (handleRequest_fopen_null _ _ _ _ Hv Ht Hf) in Ho. discriminate Ho.
  - left. rewrite (handleRequest_rejected _ _ _ _ Hv) in Ho.
    injection Ho as <-. split; reflexivity.
Qed.

(** ** The verdict *)

(** C4: in every verdict the handler sends, the ["tests"] mapping is
    present and non-empty if and only if ["is_valid"] is true. *)
Theorem tests_present_iff_is_valid env request this0 w o :
  verdict (handleRequest env request this0 w) = Some o ->
  (exists t, JSON.get "tests" o = Some (JSON.VObject t) /\ t <> [])
  <-> JSON.get "is_valid" o = Some (JSON.VBool true).
Proof.
  intros Ho. apply verdict_shapes in Ho. cbn zeta in Ho.
  destruct Ho as [[_ ->] | [_ [-> | [xmp ->]]]]; cbn.
  - split; [intros [t [H _]] | intros H]; discriminate H.
  - split; [intros [t [H _]] | intros H]; discriminate H.
  - split; [reflexivity |]. intros _. eexists. split; [reflexivity | discriminate].
Qed.

Lemma tests_present_iff_is_valid_witness :
  verdict (handleRequest (willing_env (Some jpeg_file)) (upload "a.jpg")
             new_handler empty_world)
  = Some (verdict_valid "a.jpg" photoshopped)
  /\ ((exists t,
         JSON.get "tests" (verdict_valid "a.jpg" photoshopped)
         = Some (JSON.VObject t)
         /\ t <> [])
      <-> JSON.get "is_valid" (verdict_valid "a.jpg" photoshopped)
          = Some (JSON.VBool true)).
Proof.
  split; [reflexivity |].
  apply (tests_present_iff_is_valid (willing_env (Some jpeg_file)) (upload "a.jpg")
           new_handler empty_world).
  reflexivity.
Defined.

(** C3, as the code has it: in every verdict the handler sends, the
    ["name"] field is present if and only if [validateRequest]
    accepted the request; when it is present, the Sanitizer accepted
    the path segment, and the field holds that segment. *)
Theorem name_present_iff_request_accepted env request this0 w o :
  verdict (handleRequest env request this0 w) = Some o ->
  (JSON.has "name" o = true <-> fst (validateRequest request this0) = true)
  /\ (JSON.has "name" o = true ->
      exists segment,
        getPathSegments request = [segment]
        /\ sanitizer_accepts segment = true
        /\ JSON.get "name" o = Some (JSON.VString segment)).
Proof.
  intros Ho. apply verdict_shapes in Ho. cbn zeta in Ho.
  destruct Ho as [[Hv ->] | [Hv Ho]].
  - rewrite Hv. cbn. split; [split |]; discriminate.
  - split.
    + rewrite Hv. destruct Ho as [-> | [xmp ->]]; cbn; split; reflexivity.
    + intros _. destruct (validateRequest_accepted _ _ Hv) as [segment [Hs [Ha Hb]]].
      exists segment. rewrite Hb in Ho. cbn in Ho.
      destruct Ho as [-> | [xmp ->]]; repeat split; assumption.
Qed.

Lemma name_present_iff_request_accepted_witness :
  verdict (handleRequest (willing_env (Some png_file)) (upload "a.png")
             new_handler empty_world)
  = Some (verdict_invalid_named "a.png")
  /\
  (JSON.has "name" (verdict_invalid_named "a.png") = true
   <-> fst (validateRequest (upload "a.png") new_handler) = true)
  /\ (JSON.has "name" (verdict_invalid_named "a.png") = true ->
      exists segment,
        getPathSegments (upload "a.png") = [segment]
        /\ sanitizer_accepts segment = true
        /\ JSON.get "name" (verdict_invalid_named "a.png")
           = Some (JSON.VString segment)).
Proof.
  split; [reflexivity |].
  apply (name_present_iff_request_accepted (willing_env (Some png_file))
           (upload "a.png") new_handler empty_world).
  reflexivity.
Defined.

(** C3 as stated fails: the Sanitizer accepts the segment [a.jpg] of a
    request of unknown length, and the verdict has no ["name"]. *)
Lemma name_absent_though_sanitizer_accepted :
  exists o,
    verdict (handleRequest (willing_env (Some jpeg_file)) unknown_length
               new_handler empty_world) = Some o
    /\ getPathSegments unknown_length = ["a.jpg"]
    /\ ~ (JSON.has "name" o = true <-> sanitizer_accepts "a.jpg" = true).
Proof.
  exists verdict_invalid. repeat split.
  intros [_ H]. discriminate (H eq_refl).
Qed.

(** C2, as the code has it: a request that [validateRequest] refuses,
    whatever the check that failed, gets exactly [{"is_valid": false}];
    an accepted upload that was staged and whose staged bytes are not a
    JPEG container gets [{"is_valid": false, "name": <segment>}], with
    no ["tests"] key, whether or not the container holds metadata. *)
Theorem failure_verdicts env request this0 w :
  (fst (validateRequest request this0) = false ->
   verdict (handleRequest env request this0 w) = Some [("is_valid", JSON.VBool false)])
  /\ (forall segment xf,
        fst (validateRequest request this0) = true ->
        getPathSegments request = [segment] ->
        cstr_head (tmpfile_of env) <> NUL ->
        fopen_succeeds env (tmpfile_of env) = true ->
        xmp_files_read env (staged_bytes env request) = Some xf ->
        file_type xf <> XMP_FT_JPEG ->
        verdict (handleRequest env request this0 w)
        = Some [("is_valid", JSON.VBool false); ("name", JSON.VString segment)]).
Proof.
  split.
  - intros Hv. rewrite (handleRequest_rejected _ _ _ _ Hv). reflexivity.
  - intros segment xf Hv Hs Ht Hf Hx Hj.
    rewrite (handleRequest_staged _ _ _ _ Hv Ht Hf). cbn zeta. rewrite Hx.
    destruct (validateRequest_accepted _ _ Hv) as [segment' [Hs' [_ Hb]]].
    rewrite Hs in Hs'. injection Hs' as <-. rewrite Hb.
    destruct (XmpFileType_eqb (file_type xf) XMP_FT_JPEG) eqn:Ej.
    + apply XmpFileType_eqb_eq in Ej. contradiction.
    + destruct (file_xmp xf); reflexivity.
Qed.

(** The five causes of rejection, one request each, and a PNG upload
    with well-formed metadata. *)
Lemma failure_verdicts_witness :
  let run request :=
    verdict (handleRequest (willing_env (Some png_file)) request new_handler empty_world) in
  run nested_path = Some [("is_valid", JSON.VBool false)]
  /\ run spaced_name = Some [("is_valid", JSON.VBool false)]
  /\ run oversized = Some [("is_valid", JSON.VBool false)]
  /\ run unknown_length = Some [("is_valid", JSON.VBool false)]
  /\ run multipart = Some [("is_valid", JSON.VBool false)]
  /\ run (upload "a.png")
     = Some [("is_valid", JSON.VBool false); ("name", JSON.VString "a.png")].
Proof.
  cbn zeta.
  split; [| split; [| split; [| split; [| split]]]].
  - apply (proj1 (failure_verdicts (willing_env (Some png_file)) nested_path
                    new_handler empty_world)).
    reflexivity.
  - apply (proj1 (failure_verdicts (willing_env (Some png_file)) spaced_name
                    new_handler empty_world)).
    reflexivity.
  - apply (proj1 (failure_verdicts (willing_env (Some png_file)) oversized
                    new_handler empty_world)).
    reflexivity.
  - apply (proj1 (failure_verdicts (willing_env (Some png_file)) unknown_length
                    new_handler empty_world)).
    reflexivity.
  - apply (proj1 (failure_verdicts (willing_env (Some png_file)) multipart
                    new_handler empty_world)).
    reflexivity.
  - apply (proj2 (failure_verdicts (willing_env (Some png_file)) (upload "a.png")
                    new_handler empty_world) "a.png" png_file).
    + reflexivity.
    + reflexivity.
    + discriminate.
    + reflexivity.
    + reflexivity.
    + discriminate.
Defined.

(** C2 as stated fails: a PNG upload with well-formed metadata gets a
    verdict that has a ["name"] key, not the bare
    [{"is_valid": false}]. *)
Lemma non_jpeg_verdict_has_name :
  let o := handleRequest (willing_env (Some png_file)) (upload "a.png")
             new_handler empty_world in
  file_type png_file <> XMP_FT_JPEG
  /\ file_xmp png_file = Some photoshopped
  /\ verdict o = Some [("is_valid", JSON.VBool false); ("name", JSON.VString "a.png")]
  /\ verdict o <> Some [("is_valid", JSON.VBool false)].
Proof.
  cbn zeta. split; [discriminate |]. split; [reflexivity |].
  split; [vm_compute; reflexivity |].
  intros H. vm_compute in H. discriminate H.
Qed.

(** ** Resources and failures *)

(** Whenever the upload is staged, the handler returns with the staged
    file on disk and with a toolkit session or handle left over. *)
Lemma staging_is_never_undone env request this0 w :
  fst (validateRequest request this0) = true ->
  cstr_head (tmpfile_of env) <> NUL ->
  fopen_succeeds env (tmpfile_of env) = true ->
  exists r this' w',
    handleRequest env request this0 w = Responded r this' w'
    /\ disk w' !! tmpfile_of env = Some (staged_bytes env request)
    /\ ~ all_released w w'.
Proof.
  intros Hv Ht Hf. rewrite (handleRequest_staged _ _ _ _ Hv Ht Hf). cbn zeta.
  destruct (xmp_files_read env (staged_bytes env request)) as [xf |];
    [destruct (file_xmp xf) as [xmp |];
     [destruct (XmpFileType_eqb (file_type xf) XMP_FT_JPEG) |] |];
    do 3 eexists; (split; [reflexivity |]);
    (split; [apply lookup_insert_eq |]);
    unfold all_released, left_behind; cbn; lia.
Qed.

(** C1, on the code: after a well-formed JPEG upload has been answered
    with a valid verdict, the staged file is still on disk and the
    [XmpFilePtr] is still live; after a PNG upload, the toolkit
    session and both handles are left over as well. *)
Theorem staged_file_and_handles_left_behind :
  (exists r this' w',
     handleRequest (willing_env (Some jpeg_file)) (upload "a.jpg")
       new_handler empty_world = Responded r this' w'
     /\ disk w' !! "/tmp/picserver.a1B2c3" = Some four_bytes
     /\ live_xmp_files w' = 1%nat
     /\ ~ all_released empty_world w')
  /\ (exists r this' w',
        handleRequest (willing_env (Some png_file)) (upload "a.png")
          new_handler empty_world = Responded r this' w'
        /\ disk w' !! "/tmp/picserver.a1B2c3" = Some four_bytes
        /\ xmp_sessions w' = 1%nat
        /\ live_xmp_files w' = 1%nat
        /\ live_xmps w' = 1%nat).
Proof.
  split.
  - rewrite handleRequest_staged by (try reflexivity; discriminate).
    do 3 eexists. split; [reflexivity |].
    split; [apply lookup_insert_eq |].
    split; [reflexivity |].
    unfold all_released. cbn. lia.
  - rewrite handleRequest_staged by (try reflexivity; discriminate).
    do 3 eexists. split; [reflexivity |].
    split; [apply lookup_insert_eq |].
    repeat split.
Qed.

(** C9, on the code: when [fopen] returns NULL for the staging file of
    an otherwise acceptable upload, the handler does not answer: it
    hands the null stream to [fputc], which is undefined behaviour. *)
Theorem fopen_failure_sends_no_verdict :
  handleRequest (unwritable_env (Some jpeg_file)) (upload "a.jpg")
    new_handler empty_world = Crashed
  /\ verdict (handleRequest (unwritable_env (Some jpeg_file)) (upload "a.jpg")
                new_handler empty_world) = None.
Proof.
  rewrite handleRequest_fopen_null by (try reflexivity; discriminate).
  split; reflexivity.
Qed.

(** * Further properties of the code *)

(** ** [sanitized] and the tests *)

(** [sanitized] accepts a concatenation exactly when it accepts both
    parts: a name cannot be made acceptable, or unacceptable, by what
    is put before or after it. *)
Theorem sanitized_append (a b : string) :
  sanitized (String.append a b) = sanitized a && sanitized b.
Proof.
  induction a as [| c a IH]; [reflexivity |].
  change (String.append (String c a) b) with (String c (String.append a b)).
  cbn [sanitized].
  destruct (negb (isalpha c) && negb (isdigit c) && negb (Ascii.eqb c "_")
            && negb (Ascii.eqb c "-") && negb (Ascii.eqb c "."));
    [reflexivity | exact IH].
Qed.

Lemma begins_with_length (signature value : string) :
  begins_with signature value ->
  (String.length signature <= String.length value)%nat.
Proof.
  intros [rest ->]. induction signature as [| c sig IH]; simpl; lia.
Qed.

(** A creator-tool value of fewer than 16 characters, the empty value
    included, never passes [is_creator_photoshop]: [strncmp] stops at
    the terminating NUL of the shorter string. *)
Theorem is_creator_photoshop_short_value (xmp : Xmp) (value : string) :
  xmp_get_property xmp NS_XAP "xmp:CreatorTool" = Some value ->
  (String.length value < 16)%nat ->
  is_creator_photoshop xmp = false.
Proof.
  intros Hp Hlen. unfold is_creator_photoshop. rewrite Hp.
  apply Z.eqb_neq. intros E.
  apply (strncmp_begins_with photoshop_signature photoshop_signature_nul_free) in E.
  apply begins_with_length in E. cbn in E. lia.
Qed.

Lemma is_creator_photoshop_short_value_witness :
  xmp_get_property (xmp_fixture (Some "Adobe Photoshop") None None)
    NS_XAP "xmp:CreatorTool" = Some "Adobe Photoshop"
  /\ is_creator_photoshop (xmp_fixture (Some "Adobe Photoshop") None None) = false.
Proof.
  split; [reflexivity |].
  apply (is_creator_photoshop_short_value
           (xmp_fixture (Some "Adobe Photoshop") None None) "Adobe Photoshop").
  - reflexivity.
  - unfold lt. cbn. apply le_n.
Defined.

(** [strncmp] looks at the first [n] characters only. *)
Lemma strncmp_substring (n : nat) : forall s1 s2 p,
  substring 0 n s1 = substring 0 n s2 ->
  strncmp s1 p n = strncmp s2 p n.
Proof.
  induction n as [| n IH]; intros s1 s2 p H; [reflexivity |].
  destruct s1 as [| c1 s1], s2 as [| c2 s2]; cbn in H; try discriminate H.
  - reflexivity.
  - injection H as -> H. cbn [strncmp cstr_head cstr_tail].
    rewrite (IH s1 s2 (cstr_tail p) H). reflexivity.
Qed.

(** [is_creator_photoshop] depends on the first 16 characters of the
    creator-tool value only: two packets whose values agree there get
    the same answer, whatever version or text follows. *)
Theorem is_creator_photoshop_first_16 (x y : Xmp) (vx vy : string) :
  xmp_get_property x NS_XAP "xmp:CreatorTool" = Some vx ->
  xmp_get_property y NS_XAP "xmp:CreatorTool" = Some vy ->
  substring 0 16 vx = substring 0 16 vy ->
  is_creator_photoshop x = is_creator_photoshop y.
Proof.
  intros Hx Hy H. unfold is_creator_photoshop. rewrite Hx, Hy.
  rewrite (strncmp_substring 16 vx vy _ H). reflexivity.
Qed.

Lemma is_creator_photoshop_first_16_witness :
  substring 0 16 "Adobe Photoshop 24.0" = substring 0 16 "Adobe Photoshop CS6 (Windows)"
  /\ is_creator_photoshop (xmp_fixture (Some "Adobe Photoshop 24.0") None None)
     = is_creator_photoshop
         (xmp_fixture (Some "Adobe Photoshop CS6 (Windows)") (Some pi_day) None).
Proof.
  split; [reflexivity |].
  apply (is_creator_photoshop_first_16
           (xmp_fixture (Some "Adobe Photoshop 24.0") None None)
           (xmp_fixture (Some "Adobe Photoshop CS6 (Windows)") (Some pi_day) None)
           "Adobe Photoshop 24.0" "Adobe Photoshop CS6 (Windows)");
    reflexivity.
Defined.

(** [is_modifiedDate_dissimilar] does not care which of the two dates
    is the creation date: a packet with the two dates exchanged gets
    the same answer. *)
Theorem is_modifiedDate_dissimilar_symmetric (x y : Xmp) :
  xmp_get_property_date x NS_XAP "xmp:CreateDate"
  = xmp_get_property_date y NS_XAP "xmp:ModifyDate" ->
  xmp_get_property_date x NS_XAP "xmp:ModifyDate"
  = xmp_get_property_date y NS_XAP "xmp:CreateDate" ->
  is_modifiedDate_dissimilar x = is_modifiedDate_dissimilar y.
Proof.
  intros Hc Hm. unfold is_modifiedDate_dissimilar. rewrite Hc, Hm.
  destruct (xmp_get_property_date y NS_XAP "xmp:ModifyDate") as [m |],
           (xmp_get_property_date y NS_XAP "xmp:CreateDate") as [c |];
    try reflexivity.
  cbn zeta.
  rewrite (Z.eqb_sym (year m)), (Z.eqb_sym (month m)), (Z.eqb_sym (day m)),
    (Z.eqb_sym (hour m)), (Z.eqb_sym (minute m)), (Z.eqb_sym (second m)).
  reflexivity.
Qed.

Lemma is_modifiedDate_dissimilar_symmetric_witness :
  is_modifiedDate_dissimilar (xmp_fixture None (Some pi_day) (Some pi_day_later))
  = is_modifiedDate_dissimilar (xmp_fixture None (Some pi_day_later) (Some pi_day)).
Proof.
  apply (is_modifiedDate_dissimilar_symmetric
           (xmp_fixture None (Some pi_day) (Some pi_day_later))
           (xmp_fixture None (Some pi_day_later) (Some pi_day)));
    reflexivity.
Defined.

(** A packet whose creation and modification dates are one and the
    same value never shows a mismatch. *)
Theorem is_modifiedDate_dissimilar_same_date (xmp : Xmp) :
  xmp_get_property_date xmp NS_XAP "xmp:CreateDate"
  = xmp_get_property_date xmp NS_XAP "xmp:ModifyDate" ->
  is_modifiedDate_dissimilar xmp = false.
Proof.
  intros H. unfold is_modifiedDate_dissimilar. rewrite H.
  destruct (xmp_get_property_date xmp NS_XAP "xmp:ModifyDate") as [m |];
    [| reflexivity].
  cbn zeta. now rewrite !Z.eqb_refl.
Qed.

Lemma is_modifiedDate_dissimilar_same_date_witness :
  is_modifiedDate_dissimilar (xmp_fixture None (Some pi_day) (Some pi_day)) = false.
Proof.
  apply (is_modifiedDate_dissimilar_same_date
           (xmp_fixture None (Some pi_day) (Some pi_day))).
  reflexivity.
Defined.

(** ** [validateRequest] *)

(** What [validateRequest] does to the handler object: a request
    refused for its path or its name leaves [_basename] as it was; a
    request that got past the name checks has overwritten [_basename]
    with its segment, also when it is then refused for its length or
    its content type. *)
Theorem validateRequest_basename_side_effect
    (request : HTTPServerRequest) (this : MyRequestHandler) :
  let stopped := fst (validateRequest_at request this) in
  let this' := snd (validateRequest request this) in
  (stopped = Rejected PathShape \/ stopped = Rejected NameCharacters
   \/ stopped = Rejected NameLength -> this' = this)
  /\ (stopped = Rejected ContentLength \/ stopped = Rejected ContentType
      \/ stopped = Accepted ->
      exists segment,
        getPathSegments request = [segment] /\ _basename this' = segment).
Proof.
  cbn zeta. unfold validateRequest. cbn [snd].
  pose proof (validateRequest_basename request this) as Hb.
  split.
  - intros [H | [H | H]]; rewrite H in Hb; exact Hb.
  - intros [H | [H | H]]; rewrite H in Hb;
      destruct Hb as [segment [Hs [_ Hb]]]; exists segment; rewrite Hb;
      split; [exact Hs | reflexivity | exact Hs | reflexivity | exact Hs | reflexivity].
Qed.

Lemma validateRequest_basename_side_effect_witness :
  snd (validateRequest nested_path (mkHandler "old.jpg")) = mkHandler "old.jpg"
  /\ exists segment,
       getPathSegments multipart = [segment]
       /\ _basename (snd (validateRequest multipart (mkHandler "old.jpg"))) = segment.
Proof.
  split.
  - apply (proj1 (validateRequest_basename_side_effect nested_path
                    (mkHandler "old.jpg"))).
    left. reflexivity.
  - apply (proj2 (validateRequest_basename_side_effect multipart
                    (mkHandler "old.jpg"))).
    right. left. reflexivity.
Defined.

(** The verdict of [validateRequest] depends on the request only, not
    on the handler object it is called on. *)
Lemma validateRequest_at_any_handler (request : HTTPServerRequest)
    (this1 this2 : MyRequestHandler) :
  fst (validateRequest_at request this1) = fst (validateRequest_at request this2).
Proof.
  unfold validateRequest_at. cbn zeta.
  destruct (negb (List.length (getPathSegments request) =? 1)%nat); [reflexivity |].
  destruct (negb (sanitized (nth 0 (getPathSegments request) EmptyString)));
    [reflexivity |].
  destruct (maxFilenameSize <? _)%nat; [reflexivity |].
  destruct (_ || _); [reflexivity |].
  destruct (negb _); reflexivity.
Qed.

(** A declared length below -1 passes the size check: only -1 counts
    as unknown, and the comparison with the ceiling is a signed one. *)
Theorem validateRequest_negative_length
    (request : HTTPServerRequest) (this : MyRequestHandler) (segment : string) :
  getPathSegments request = [segment] ->
  sanitizer_accepts segment = true ->
  getContentType request = "application/x-www-form-urlencoded" ->
  getContentLength64 request < -1 ->
  validateRequest request this = (true, mkHandler segment).
Proof.
  intros Hs Ha Ht Hl. apply sanitizer_accepts_true in Ha. destruct Ha as [Hc Hn].
  unfold validateRequest, validateRequest_at, UNKNOWN_CONTENT_LENGTH, maxImageSize.
  cbn zeta. rewrite Hs. cbn [List.length Nat.eqb negb nth]. rewrite Hc, Hn, Ht.
  cbn [negb].
  destruct (Z.eqb_spec (getContentLength64 request) (-1)) as [E | _]; [lia |].
  destruct (Z.ltb_spec (128 * 1024 * 1024) (getContentLength64 request)) as [E | _];
    [lia |].
  reflexivity.
Qed.

Lemma validateRequest_negative_length_witness :
  validateRequest (mkRequest ["a.jpg"] (-5) form_urlencoded four_bytes) new_handler
  = (true, mkHandler "a.jpg").
Proof.
  apply (validateRequest_negative_length
           (mkRequest ["a.jpg"] (-5) form_urlencoded four_bytes) new_handler "a.jpg");
    reflexivity.
Defined.

(** ** [handleRequest] *)

(** Every way a call of [handleRequest] can end. *)
Lemma handleRequest_outcomes env request this0 w :
  let this' := snd (validateRequest request this0) in
  let named := verdict_invalid_named (_basename this') in
  (fst (validateRequest request this0) = false
   /\ handleRequest env request this0 w
      = Responded (json_response verdict_invalid) this' w)
  \/ (fst (validateRequest request this0) = true
      /\ ((cstr_head (tmpfile_of env) = NUL
           /\ handleRequest env request this0 w
              = Responded (json_response named) this' w)
          \/ (cstr_head (tmpfile_of env) <> NUL
              /\ fopen_succeeds env (tmpfile_of env) = false
              /\ handleRequest env request this0 w = Crashed)
          \/ (cstr_head (tmpfile_of env) <> NUL
              /\ fopen_succeeds env (tmpfile_of env) = true
              /\ handleRequest env request this0 w
                 = match jpeg_packet env request with
                   | Some xmp =>
                       Responded
                         (json_response (verdict_valid (_basename this') xmp))
                         this' (left_behind env request w 0 1 0)
                   | None =>
                       match xmp_files_read env (staged_bytes env request) with
                       | Some {| file_xmp := Some _ |} =>
                           Responded (json_response named) this'
                             (left_behind env request w 1 1 1)
                       | _ =>
                           Responded (json_response named) this'
                             (left_behind env request w 1 0 0)
                       end
                   end))).
Proof.
  cbn zeta. destruct (fst (validateRequest request this0)) eqn:Hv.
  - right. split; [reflexivity |].
    destruct (Ascii.eqb_spec (cstr_head (tmpfile_of env)) NUL) as [Ht | Ht].
    + left. split; [exact Ht | apply handleRequest_no_tmpfile; assumption].
    + right. destruct (fopen_succeeds env (tmpfile_of env)) eqn:Hf.
      * right. repeat split; [exact Ht |].
        rewrite (handleRequest_staged _ _ _ _ Hv Ht Hf). cbn zeta.
        unfold jpeg_packet.
        destruct (xmp_files_read env (staged_bytes env request)) as [[[xmp |] type] |];
          cbn [file_xmp file_type]; try reflexivity.
        destruct (XmpFileType_eqb type XMP_FT_JPEG); reflexivity.
      * left. repeat split; [exact Ht |].
        apply handleRequest_fopen_null; assumption.
  - left. split; [reflexivity | apply handleRequest_rejected; assumption].
Qed.

(** Whenever [handleRequest] answers, the response is chunked, its
    content type is [application/json], and a JSON object was sent:
    this holds for refused requests as well. *)
Theorem response_is_chunked_json env request this0 w r this' w' :
  handleRequest env request this0 w = Responded r this' w' ->
  chunkedTransferEncoding r = true
  /\ contentType r = "application/json"
  /\ exists o, sent r = Some o.
Proof.
  intros H.
  destruct (handleRequest_outcomes env request this0 w)
    as [[_ E] | [_ [[_ E] | [[_ [_ E]] | [_ [_ E]]]]]];
    rewrite E in H; try discriminate H.
  - injection H as <- _ _. cbn. eauto.
  - injection H as <- _ _. cbn. eauto.
  - destruct (jpeg_packet env request);
      [| destruct (xmp_files_read env (staged_bytes env request)) as [[[?|] ?]|]];
      injection H as <- _ _; cbn; eauto.
Qed.

Lemma response_is_chunked_json_witness :
  chunkedTransferEncoding (json_response verdict_invalid) = true
  /\ contentType (json_response verdict_invalid) = "application/json"
  /\ exists o, sent (json_response verdict_invalid) = Some o.
Proof.
  apply (response_is_chunked_json (willing_env (Some jpeg_file)) multipart
           new_handler empty_world (json_response verdict_invalid)
           (mkHandler "a.jpg") empty_world).
  reflexivity.
Defined.



(** What a call that answers can have changed: no [FILE] stream is
    left open, no file other than the staging file is created, altered
    or removed, and at most one toolkit session, one file handle and
    one packet handle are added; none is ever taken away. *)
Theorem handleRequest_footprint env request this0 w r this' w' :
  handleRequest env request this0 w = Responded r this' w' ->
  open_streams w' = open_streams w
  /\ (forall name, name <> tmpfile_of env -> disk w' !! name = disk w !! name)
  /\ (xmp_sessions w <= xmp_sessions w' <= S (xmp_sessions w))%nat
  /\ (live_xmp_files w <= live_xmp_files w' <= S (live_xmp_files w))%nat
  /\ (live_xmps w <= live_xmps w' <= S (live_xmps w))%nat.
Proof.
  intros H.
  assert (Hleft : forall s f p, (s <= 1)%nat -> (f <= 1)%nat -> (p <= 1)%nat ->
            w' = left_behind env request w s f p ->
            open_streams w' = open_streams w
            /\ (forall name, name <> tmpfile_of env -> disk w' !! name = disk w !! name)
            /\ (xmp_sessions w <= xmp_sessions w' <= S (xmp_sessions w))%nat
            /\ (live_xmp_files w <= live_xmp_files w' <= S (live_xmp_files w))%nat
            /\ (live_xmps w <= live_xmps w' <= S (live_xmps w))%nat).
  { intros s f p Hs Hf Hp ->. unfold left_behind.
    cbn [open_streams disk xmp_sessions live_xmp_files live_xmps].
    split; [reflexivity |].
    split; [intros name Hn; apply lookup_insert_ne; congruence |].
    lia. }
  destruct (handleRequest_outcomes env request this0 w)
    as [[_ E] | [_ [[_ E] | [[_ [_ E]] | [_ [_ E]]]]]];
    rewrite E in H; try discriminate H.
  - injection H as _ _ <-. repeat split; lia.
  - injection H as _ _ <-. repeat split; lia.
  - destruct (jpeg_packet env request);
      [| destruct (xmp_files_read env (staged_bytes env request)) as [[[?|] ?]|]];
      injection H as _ _ <-; refine (Hleft _ _ _ _ _ _ eq_refl); lia.
Qed.

Lemma handleRequest_footprint_witness :
  let w' := left_behind (willing_env (Some png_file)) (upload "a.png") empty_world 1 1 1 in
  handleRequest (willing_env (Some png_file)) (upload "a.png") new_handler empty_world
  = Responded (json_response (verdict_invalid_named "a.png")) (mkHandler "a.png") w'
  /\ open_streams w' = open_streams empty_world
  /\ (forall name, name <> tmpfile_of (willing_env (Some png_file)) ->
                   disk w' !! name = disk empty_world !! name)
  /\ (xmp_sessions empty_world <= xmp_sessions w' <= S (xmp_sessions empty_world))%nat
  /\ (live_xmp_files empty_world <= live_xmp_files w'
      <= S (live_xmp_files empty_world))%nat
  /\ (live_xmps empty_world <= live_xmps w' <= S (live_xmps empty_world))%nat.
Proof.
  cbn zeta.
  assert (E : handleRequest (willing_env (Some png_file)) (upload "a.png")
                new_handler empty_world
              = Responded (json_response (verdict_invalid_named "a.png"))
                  (mkHandler "a.png")
                  (left_behind (willing_env (Some png_file)) (upload "a.png")
                     empty_world 1 1 1)).
  { vm_compute. reflexivity. }
  split; [exact E |].
  exact (handleRequest_footprint _ _ _ _ _ _ _ E).
Defined.

(** The verdict of an accepted upload that could be staged: valid,
    with the name and the two test results in that order, when
    libexempi reads the staged bytes as a JPEG file with a packet;
    the named failure in every other case (file not opened, no
    packet, another container). *)
Theorem staged_upload_verdict env request this0 w segment :
  fst (validateRequest request this0) = true ->
  getPathSegments request = [segment] ->
  cstr_head (tmpfile_of env) <> NUL ->
  fopen_succeeds env (tmpfile_of env) = true ->
  verdict (handleRequest env request this0 w)
  = Some
      match jpeg_packet env request with
      | Some xmp =>
          [("is_valid", JSON.VBool true);
           ("name", JSON.VString segment);
           ("tests", JSON.VObject
              [("creator_tool_is_photoshop", JSON.VBool (is_creator_photoshop xmp));
               ("create_modify_mismatch",
                JSON.VBool (is_modifiedDate_dissimilar xmp))])]
      | None =>
          [("is_valid", JSON.VBool false); ("name", JSON.VString segment)]
      end.
Proof.
  intros Hv Hs Ht Hf.
  destruct (validateRequest_accepted _ _ Hv) as [segment' [Hs' [_ Hb]]].
  rewrite Hs in Hs'. injection Hs' as <-.
  destruct (handleRequest_outcomes env request this0 w)
    as [[Hv' _] | [_ [[Ht' _] | [[_ [Hf' _]] | [_ [_ E]]]]]];
    try congruence.
  rewrite E, Hb. cbn [_basename].
  destruct (jpeg_packet env request); [reflexivity |].
  destruct (xmp_files_read env (staged_bytes env request)) as [[[?|] ?]|];
    reflexivity.
Qed.

Lemma staged_upload_verdict_witness :
  verdict (handleRequest (willing_env (Some jpeg_file)) (upload "a.jpg")
             new_handler empty_world)
  = Some
      [("is_valid", JSON.VBool true);
       ("name", JSON.VString "a.jpg");
       ("tests", JSON.VObject
          [("creator_tool_is_photoshop", JSON.VBool true);
           ("create_modify_mismatch", JSON.VBool false)])].
Proof.
  apply (staged_upload_verdict (willing_env (Some jpeg_file)) (upload "a.jpg")
           new_handler empty_world "a.jpg").
  - reflexivity.
  - reflexivity.
  - discriminate.
  - reflexivity.
Defined.

(** The verdict depends on the request and on what the platform
    answers, and on nothing else: not on what the handler object held
    before, not on the files and handles that earlier requests left
    behind. *)
Theorem verdict_independent_of_history env request this1 this2 w1 w2 :
  verdict (handleRequest env request this1 w1)
  = verdict (handleRequest env request this2 w2).
Proof.
  assert (Hfst : fst (validateRequest request this1) = fst (validateRequest request this2)).
  { unfold validateRequest. cbn [fst].
    now rewrite (validateRequest_at_any_handler request this1 this2). }
  assert (Hname : fst (validateRequest request this1) = true ->
                  _basename (snd (validateRequest request this1))
                  = _basename (snd (validateRequest request this2))).
  { intros Hv.
    destruct (validateRequest_accepted _ _ Hv) as [s1 [Hs1 [_ Hb1]]].
    rewrite Hfst in Hv.
    destruct (validateRequest_accepted _ _ Hv) as [s2 [Hs2 [_ Hb2]]].
    rewrite Hb1, Hb2. congruence. }
  destruct (handleRequest_outcomes env request this1 w1)
    as [[Hv1 E1] | [Hv1 [[Ht1 E1] | [[Ht1 [Hf1 E1]] | [Ht1 [Hf1 E1]]]]]];
    destruct (handleRequest_outcomes env request this2 w2)
      as [[Hv2 E2] | [Hv2 [[Ht2 E2] | [[Ht2 [Hf2 E2]] | [Ht2 [Hf2 E2]]]]]];
    try congruence; rewrite E1, E2; try reflexivity.
  - rewrite (Hname Hv1). reflexivity.
  - rewrite (Hname Hv1).
    destruct (jpeg_packet env request); [reflexivity |].
    destruct (xmp_files_read env (staged_bytes env request)) as [[[?|] ?]|];
      reflexivity.
Qed.

(** The bytes [fputc] failed to write are simply missing: when the
    file takes [limit] bytes only, the call ends exactly as it ends,
    without any limit, for the same request with its body cut after
    [limit] bytes. *)
Theorem short_write_is_a_shorter_upload env request this0 w limit :
  file_size_limit env = Some limit ->
  handleRequest env request this0 w
  = handleRequest (unlimited env) (truncated limit request) this0 w.
Proof.
  intros Hl.
  assert (Hv : validateRequest (truncated limit request) this0
               = validateRequest request this0) by reflexivity.
  assert (Hs : staged_bytes (unlimited env) (truncated limit request)
               = staged_bytes env request).
  { unfold staged_bytes. rewrite Hl. reflexivity. }
  assert (Hj : jpeg_packet (unlimited env) (truncated limit request)
               = jpeg_packet env request).
  { unfold jpeg_packet. rewrite Hs. reflexivity. }
  assert (Hw : forall s f p,
             left_behind (unlimited env) (truncated limit request) w s f p
             = left_behind env request w s f p).
  { intros. unfold left_behind. rewrite Hs. reflexivity. }
  destruct (handleRequest_outcomes env request this0 w)
    as [[Hv1 E1] | [Hv1 [[Ht1 E1] | [[Ht1 [Hf1 E1]] | [Ht1 [Hf1 E1]]]]]];
    destruct (handleRequest_outcomes (unlimited env) (truncated limit request) this0 w)
      as [[Hv2 E2] | [Hv2 [[Ht2 E2] | [[Ht2 [Hf2 E2]] | [Ht2 [Hf2 E2]]]]]];
    rewrite Hv in *; change (tmpfile_of (unlimited env)) with (tmpfile_of env) in *;
    change (fopen_succeeds (unlimited env)) with (fopen_succeeds env) in *;
    try congruence.
  rewrite E1, E2, Hj, Hs, !Hw. reflexivity.
Qed.

Lemma short_write_is_a_shorter_upload_witness :
  let env := mkEnv (fun _ => "/tmp/picserver.a1B2c3") (fun _ => true) (Some 2%nat)
               (fun _ => Some jpeg_file) in
  file_size_limit env = Some 2%nat
  /\ handleRequest env (upload "a.jpg") new_handler empty_world
     = handleRequest (unlimited env) (truncated 2 (upload "a.jpg"))
         new_handler empty_world.
Proof.
  cbn zeta. split; [reflexivity |].
  apply (short_write_is_a_shorter_upload
           (mkEnv (fun _ => "/tmp/picserver.a1B2c3") (fun _ => true) (Some 2%nat)
              (fun _ => Some jpeg_file))
           (upload "a.jpg") new_handler empty_world 2).
  reflexivity.
Defined.

(** The name echoed in a verdict is always a name the checks let
    through: it is made of characters of the allow-list only and has
    at most 64 of them. *)
Theorem echoed_name_is_sanitized env request this0 w o v :
  verdict (handleRequest env request this0 w) = Some o ->
  JSON.get "name" o = Some v ->
  exists name,
    v = JSON.VString name /\ all_allowed name /\ (String.length name <= 64)%nat.
Proof.
  intros Ho Hn. apply verdict_shapes in Ho. cbn zeta in Ho.
  destruct Ho as [[_ ->] | [Hv Ho]]; [discriminate Hn |].
  destruct (validateRequest_accepted _ _ Hv) as [segment [_ [Ha Hb]]].
  rewrite Hb in Ho. cbn [_basename] in Ho.
  apply sanitizer_accepts_true in Ha. destruct Ha as [Hc Hl].
  apply sanitized_all_allowed in Hc. apply Nat.ltb_ge in Hl.
  exists segment.
  destruct Ho as [-> | [xmp ->]]; cbn in Hn; injection Hn as <-;
    repeat split; assumption.
Qed.

Lemma echoed_name_is_sanitized_witness :
  exists name,
    JSON.VString "a.png" = JSON.VString name
    /\ all_allowed name /\ (String.length name <= 64)%nat.
Proof.
  apply (echoed_name_is_sanitized (willing_env (Some png_file)) (upload "a.png")
           new_handler empty_world (verdict_invalid_named "a.png")
           (JSON.VString "a.png"));
    reflexivity.
Defined.

(** The keys of a verdict, in order, are [is_valid] alone, or
    [is_valid, name], or [is_valid, name, tests]: [is_valid] comes
    first and occurs once although it is set twice on the success
    path; and the keys of [tests], when present, are the two tests in
    the order they were run. *)
Theorem verdict_key_order env request this0 w o :
  verdict (handleRequest env request this0 w) = Some o ->
  (keys o = ["is_valid"] \/ keys o = ["is_valid"; "name"]
   \/ keys o = ["is_valid"; "name"; "tests"])
  /\ (forall v, JSON.get "tests" o = Some v ->
        exists t,
          v = JSON.VObject t
          /\ keys t = ["creator_tool_is_photoshop"; "create_modify_mismatch"]).
Proof.
  intros Ho. apply verdict_shapes in Ho. cbn zeta in Ho.
  destruct Ho as [[_ ->] | [_ [-> | [xmp ->]]]]; cbn.
  - split; [left; reflexivity | discriminate].
  - split; [right; left; reflexivity | discriminate].
  - split; [right; right; reflexivity |].
    intros v Hv. injection Hv as <-. eexists. split; reflexivity.
Qed.

Lemma verdict_key_order_witness :
  (keys (verdict_valid "a.jpg" photoshopped) = ["is_valid"]
   \/ keys (verdict_valid "a.jpg" photoshopped) = ["is_valid"; "name"]
   \/ keys (verdict_valid "a.jpg" photoshopped) = ["is_valid"; "name"; "tests"])
  /\ (forall v, JSON.get "tests" (verdict_valid "a.jpg" photoshopped) = Some v ->
        exists t,
          v = JSON.VObject t
          /\ keys t = ["creator_tool_is_photoshop"; "create_modify_mismatch"]).
Proof.
  apply (verdict_key_order (willing_env (Some jpeg_file)) (upload "a.jpg")
           new_handler empty_world).
  reflexivity.
Defined.

(** The handler object only ever holds a name that passes the
    Sanitizer: this is so for the handler the factory creates, and
    every call of [handleRequest] that answers keeps it so, whether
    the request was accepted or refused. *)
Theorem basename_stays_sanitized :
  sanitizer_accepts (_basename createRequestHandler) = true
  /\ forall env request this0 w r this' w',
       sanitizer_accepts (_basename this0) = true ->
       handleRequest env request this0 w = Responded r this' w' ->
       sanitizer_accepts (_basename this') = true.
Proof.
  split; [reflexivity |].
  intros env request this0 w r this' w' H0 H.
  assert (Hthis : this' = snd (validateRequest request this0)).
  { destruct (handleRequest_outcomes env request this0 w)
      as [[_ E] | [_ [[_ E] | [[_ [_ E]] | [_ [_ E]]]]]];
      rewrite E in H; try discriminate H.
    - now injection H as _ <- _.
    - now injection H as _ <- _.
    - destruct (jpeg_packet env request);
        [| destruct (xmp_files_read env (staged_bytes env request)) as [[[?|] ?]|]];
        now injection H as _ <- _. }
  subst this'. unfold validateRequest. cbn [snd].
  pose proof (validateRequest_basename request this0) as Hb.
  destruct (fst (validateRequest_at request this0)) as [[| | | |] |];
    try (rewrite Hb; exact H0);
    destruct Hb as [segment [_ [Ha ->]]]; exact Ha.
Qed.

Lemma basename_stays_sanitized_witness :
  sanitizer_accepts
    (_basename (snd (validateRequest multipart createRequestHandler))) = true.
Proof.
  apply (proj2 basename_stays_sanitized (willing_env (Some jpeg_file)) multipart
           createRequestHandler empty_world (json_response verdict_invalid)
           (snd (validateRequest multipart createRequestHandler)) empty_world).
  - reflexivity.
  - reflexivity.
Defined.

(** ** [main] *)

(** The listening port: 8080 when none is configured; a configured
    [unsigned int] is cut to its low 16 bits, so the port is the
    configured one exactly when that is below 65536, and a larger
    value silently selects another port. *)
Theorem main_port_wraps (configured : Z) :
  0 <= configured < 2 ^ 32 ->
  main_port None = 8080
  /\ 0 <= main_port (Some configured) < 65536
  /\ (main_port (Some configured) = configured <-> configured < 65536)
  /\ main_port (Some (configured mod 65536)) = main_port (Some configured).
Proof.
  intros Hc. unfold main_port, to_UInt16, getUInt.
  split; [reflexivity |].
  split; [apply Z.mod_pos_bound; lia |].
  split.
  - split.
    + intros H. rewrite <- H. apply Z.mod_pos_bound. lia.
    + intros H. apply Z.mod_small. lia.
  - apply Z.mod_mod. lia.
Qed.

Lemma main_port_wraps_witness :
  main_port None = 8080
  /\ 0 <= main_port (Some 70000) < 65536
  /\ (main_port (Some 70000) = 70000 <-> 70000 < 65536)
  /\ main_port (Some (70000 mod 65536)) = main_port (Some 70000).
Proof.
  apply (main_port_wraps 70000).
  split; [discriminate | reflexivity].
Defined.
